(** * The stability service of reefer-plan

    A shallow embedding of [stability-service/main.py]: one FastAPI
    application with the single route [POST /calculate-stability], whose
    handler [calculate_stability] takes the request body as a Python [dict]
    and returns a dict literal of three numbers. *)

From Stdlib Require Import ZArith QArith.
From Stdlib Require Import Floats.SpecFloat.
From stdpp Require Import base option gmap strings list fin_maps.

Local Open Scope Z_scope.
Local Open Scope string_scope.

(** ** Python numbers *)

(** Python's [float] is IEEE 754 binary64.  The values are those of the
    standard library's [spec_float], at precision 53 and top exponent 1024. *)
Module Float64.

Definition prec : Z := 53.
Definition emax : Z := 1024.

(** The float nearest to an integer. *)
Definition of_Z (z : Z) : spec_float := binary_normalize prec emax z 0 false.

(** The float written [d.ddd] in the program text: [digits] is the literal
    with its point removed and [decimals] counts the digits after the
    point.  Numerator and power of ten are exact floats for the literals
    used here, so the one rounding of the division is the rounding of the
    literal. *)
Definition literal (digits : Z) (decimals : nat) : spec_float :=
  SFdiv prec emax (of_Z digits) (of_Z (10 ^ Z.of_nat decimals)).

(** The rational a float stands for; infinities and NaN stand for none. *)
Definition to_Q (f : spec_float) : option Q :=
  match f with
  | S754_zero _ => Some 0%Q
  | S754_finite s m e =>
      let mag := (inject_Z (Z.pos m) * Qpower 2 e)%Q in
      Some (if s then Qopp mag else mag)
  | S754_infinity _ | S754_nan => None
  end.

End Float64.

(** ** JSON values, as Python holds them after decoding the request body *)

#[warnings="-register-all"]
Inductive json : Type :=
  | JNull
  | JBool (b : bool)
  | JInt (z : Z)
  | JFloat (f : spec_float)
  | JStr (s : string)
  | JList (items : list json)
  | JDict (fields : gmap string json).

(** A Python [dict] with string keys. *)
Abbreviation dict := (gmap string json).

(** A dict display [{k1: v1, k2: v2, ...}]: the items are stored from left to
    right, a later item replacing an earlier one with the same key. *)
Definition dict_display (items : list (string * json)) : dict :=
  fold_left (fun d kv => <[kv.1 := kv.2]> d) items ∅.

(** The number a value denotes, for Python's numeric comparisons: [int] and
    [float] compare by exact value. *)
Definition number (v : json) : option Q :=
  match v with
  | JInt z => Some (inject_Z z)
  | JFloat f => Float64.to_Q f
  | _ => None
  end.

(** [a == b] on two numbers; [false] when one of them is not a number. *)
Definition num_eqb (a b : json) : bool :=
  match number a, number b with
  | Some x, Some y => Qeq_bool x y
  | _, _ => false
  end.

(** [a <= b] on two numbers. *)
Definition num_leb (a b : json) : bool :=
  match number a, number b with
  | Some x, Some y => Qle_bool x y
  | _, _ => false
  end.

(** ** Running Python code *)

(** How a call ends. *)
Inductive outcome (A : Type) : Type :=
  | Returned (a : A)
  | Raised (exn : string).
Arguments Returned {A} a.
Arguments Raised {A} exn.

Section Handler.

(** What the program's own code could read or write besides the argument of
    a call: the globals of the module and the rest of the process, as the
    program sees them.  The bookkeeping Starlette and FastAPI do on their own
    objects while they dispatch a request (the middleware stack that [app]
    builds on its first request, for one) is not the program's and is left
    out. *)
Variable World : Type.

(** A computation threads the world and ends in an outcome. *)
Definition Py (A : Type) : Type := World -> World * outcome A.

Definition py_return {A : Type} (a : A) : Py A := fun w => (w, Returned a).

(** main.py, lines 6-12.

    async def calculate_stability(data: dict):
        return {"displacement": 8000, "estimatedGM": 1.5, "estimatedTrim": 0.2}

    The coroutine has no [await]: awaiting it runs the body to its
    [return]. *)
Definition calculate_stability (data : dict) : Py dict :=
  py_return
    (dict_display
       [ ("displacement", JInt 8000);
         ("estimatedGM", JFloat (Float64.literal 15 1));
         ("estimatedTrim", JFloat (Float64.literal 2 1)) ]).

(** What the client of the route gets back. *)
Inductive response : Type :=
  | Success (content : dict)
  | ValidationFailure
  | BadRequest
  | ServerError.

(** The HTTP status of a response: the handler's return value goes out as
    200, FastAPI's request validation error as 422, its error on a body it
    could not parse as 400, an exception that escapes the handler as 500. *)
Definition status_code (r : response) : Z :=
  match r with
  | Success _ => 200
  | ValidationFailure => 422
  | BadRequest => 400
  | ServerError => 500
  end.

(** The computation result a response carries, if it carries one. *)
Definition result_of (r : response) : option dict :=
  match r with
  | Success content => Some content
  | ValidationFailure | BadRequest | ServerError => None
  end.

(** The JSON object a response has for its body.  FastAPI's two exception
    handlers answer with the one key [detail]: under it the list [errors]
    of what the validation found, or the fixed message of the parse error.
    The answer to an exception of the handler is plain text, no object. *)
Definition response_body (errors : json) (r : response) : option dict :=
  match r with
  | Success content => Some content
  | ValidationFailure => Some (dict_display [ ("detail", errors) ])
  | BadRequest =>
      Some (dict_display
              [ ("detail", JStr "There was an error parsing the body") ])
  | ServerError => None
  end.

(** The body fits the annotation [data: dict] when a JSON object was decoded
    from it; [None] stands for no decoded value at all. *)
Definition is_object (body : option json) : bool :=
  match body with
  | Some (JDict _) => true
  | _ => false
  end.

(** main.py, lines 5-6.

    @app.post("/calculate-stability")
    async def calculate_stability(data: dict):

    The only parameter is the body, annotated [dict].  [body] is what
    FastAPI decoded: [Some v] for the JSON value [v], [None] when the JSON
    decoder raised [JSONDecodeError], when the body was empty or when its
    content type did not declare JSON.  A
    value that is not an object, or none, fails the validation against
    [dict] and is answered with the validation failure without a call of
    the handler; an object is what the handler is called on. *)
Definition post_calculate_stability (body : option json)
    : World -> World * response :=
  fun w =>
    match body with
    | Some (JDict data) =>
        let '(w', o) := calculate_stability data w in
        (w', match o with
             | Returned content => Success content
             | Raised _ => ServerError
             end)
    | _ => (w, ValidationFailure)
    end.

(** How FastAPI's reading of the request body ends, before any validation:
    in a JSON value or a [JSONDecodeError], which [JSONBody] passes on, or
    in any other exception (bytes that are not UTF-8, a nesting or a number
    beyond the decoder's limits), which is [ParseError]. *)
Inductive reading : Type :=
  | ParseError
  | JSONBody (body : option json).

(** The request handler FastAPI builds for the route: a parse error is
    answered 400 on the spot, everything else goes through the validation
    and the handler. *)
Definition request_handler (r : reading) : World -> World * response :=
  match r with
  | ParseError => fun w => (w, BadRequest)
  | JSONBody body => post_calculate_stability body
  end.

End Handler.

Arguments py_return {World A} a w /.
Arguments calculate_stability {World} data w.
Arguments post_calculate_stability {World} body w.
Arguments request_handler {World} r w.

(** ** Reading a payload by the field names of the data model *)

(** The field names are those of the specification's [StabilityInput]; the
    program reads none of them.  These two functions serve to say, of a
    sample payload, what it supplies. *)

(** The [weight] of one entry of [cargo_distribution]. *)
Definition cargo_weight (item : json) : option Q :=
  match item with
  | JDict fields => fields !! "weight" ≫= number
  | _ => None
  end.

(** The sum of the cargo weights a payload supplies. *)
Definition supplied_weights_sum (data : dict) : Q :=
  match data !! "cargo_distribution" with
  | Some (JList items) => fold_right Qplus 0%Q (omap cargo_weight items)
  | _ => 0%Q
  end.

(** ** Sample payloads *)

Module Samples.

(** The example scenario of the specification's testable properties. *)
Definition example_scenario : dict :=
  dict_display
    [ ("displacement_tonnes", JInt 8000);
      ("center_of_gravity_height", JFloat (Float64.literal 60 1));
      ("center_of_buoyancy_height", JFloat (Float64.literal 75 1));
      ("beam", JInt 20) ].

(** Centre of buoyancy and centre of gravity at the same height, and no
    beam from which a metacentric radius could be derived. *)
Definition level_centres : dict :=
  dict_display
    [ ("displacement_tonnes", JInt 8000);
      ("center_of_gravity_height", JFloat (Float64.literal 60 1));
      ("center_of_buoyancy_height", JFloat (Float64.literal 60 1)) ].

(** A vessel of 9000 tonnes, with the two cargo weights that make them up. *)
Definition loaded_vessel : dict :=
  dict_display
    [ ("displacement_tonnes", JInt 9000);
      ("center_of_gravity_height", JFloat (Float64.literal 60 1));
      ("center_of_buoyancy_height", JFloat (Float64.literal 75 1));
      ("cargo_distribution",
        JList
          [ JDict (dict_display [ ("weight", JInt 4000);
                                  ("longitudinal_position", JFloat (Float64.literal 400 1)) ]);
            JDict (dict_display [ ("weight", JInt 5000);
                                  ("longitudinal_position", JFloat (Float64.literal (-320) 1)) ]) ]) ].

(** A negative displacement. *)
Definition negative_displacement : dict :=
  dict_display
    [ ("displacement_tonnes", JInt (-5));
      ("center_of_gravity_height", JFloat (Float64.literal 60 1));
      ("center_of_buoyancy_height", JFloat (Float64.literal 75 1)) ].

(** A displacement that is not a number. *)
Definition textual_displacement : dict :=
  dict_display
    [ ("displacement_tonnes", JStr "heavy");
      ("center_of_gravity_height", JFloat (Float64.literal 60 1));
      ("center_of_buoyancy_height", JFloat (Float64.literal 75 1)) ].

End Samples.

(** The dict display of main.py, lines 8-12. *)
Local Abbreviation constants :=
  (dict_display
     [ ("displacement", JInt 8000);
       ("estimatedGM", JFloat (Float64.literal 15 1));
       ("estimatedTrim", JFloat (Float64.literal 2 1)) ]).

(** * Properties *)

(** ** The literals of the program *)

Lemma literal_1_5 :
  Float64.literal 15 1 = S754_finite false 6755399441055744 (-52).
Proof. vm_compute. reflexivity. Qed.

Lemma literal_0_2 :
  Float64.literal 2 1 = S754_finite false 7205759403792794 (-55).
Proof. vm_compute. reflexivity. Qed.

Lemma literal_0_0 : Float64.literal 0 1 = S754_zero false.
Proof. reflexivity. Qed.

(** [1.5] is the rational 3/2; [0.2] is the double next to 1/5, a little
    above it. *)
Lemma literal_1_5_exact :
  option_map (Qcompare (3 # 2)) (Float64.to_Q (Float64.literal 15 1)) = Some Eq.
Proof. rewrite literal_1_5. reflexivity. Qed.

Lemma literal_0_2_above :
  option_map (Qcompare (1 # 5)) (Float64.to_Q (Float64.literal 2 1)) = Some Lt.
Proof. rewrite literal_0_2. reflexivity. Qed.

(** ** The dict the handler returns *)

Lemma constants_displacement : constants !! "displacement" = Some (JInt 8000).
Proof.
  unfold dict_display; simpl.
  rewrite !lookup_insert_ne by discriminate.
  apply lookup_insert_eq.
Qed.

Lemma constants_estimatedGM :
  constants !! "estimatedGM" = Some (JFloat (Float64.literal 15 1)).
Proof.
  unfold dict_display; simpl.
  rewrite lookup_insert_ne by discriminate.
  apply lookup_insert_eq.
Qed.

Lemma constants_estimatedTrim :
  constants !! "estimatedTrim" = Some (JFloat (Float64.literal 2 1)).
Proof. unfold dict_display; simpl. apply lookup_insert_eq. Qed.

Lemma constants_dom :
  dom constants = ({[ "displacement"; "estimatedGM"; "estimatedTrim" ]} : gset string).
Proof.
  unfold dict_display; simpl.
  rewrite !dom_insert_L, dom_empty_L.
  set_solver.
Qed.

(** ** One call of the handler, one request to the route *)

Lemma handler_run {World : Type} (data : dict) (w : World) :
  calculate_stability data w = (w, Returned constants).
Proof. reflexivity. Qed.

Lemma route_on_object {World : Type} (data : dict) (w : World) :
  post_calculate_stability (Some (JDict data)) w = (w, Success constants).
Proof. unfold post_calculate_stability. rewrite handler_run. reflexivity. Qed.

Lemma route_on_other {World : Type} (body : option json) (w : World) :
  is_object body = false ->
  post_calculate_stability body w = (w, ValidationFailure).
Proof. destruct body as [[]|]; simpl; intros H; (reflexivity || discriminate H). Qed.

(** ** The handler is a constant *)

(** C1. For every request payload, [calculate_stability] computes nothing
    from the payload: it returns the dict of the fixed values
    displacement = 8000, estimatedGM = 1.5 and estimatedTrim = 0.2, and
    leaves the world as it found it. *)
Theorem calculate_stability_fixed_values {World : Type} (data : dict) (w : World) :
  calculate_stability data w =
    (w, Returned {[ "displacement" := JInt 8000;
                    "estimatedGM" := JFloat (Float64.literal 15 1);
                    "estimatedTrim" := JFloat (Float64.literal 2 1) ]}).
Proof.
  rewrite handler_run.
  (* both dicts are the same trie: three inserts in either order *)
  reflexivity.
Qed.

(** C9. The response does not depend on the request: any two payloads get
    the same outcome from the handler and the same response from the route,
    so no field of the input reaches a field of the output. *)
Theorem response_independent_of_payload {World : Type}
    (data1 data2 : dict) (w1 w2 : World) :
  (calculate_stability data1 w1).2 = (calculate_stability data2 w2).2 /\
  (post_calculate_stability (Some (JDict data1)) w1).2 =
    (post_calculate_stability (Some (JDict data2)) w2).2.
Proof. split; [ rewrite !handler_run | rewrite !route_on_object ]; reflexivity. Qed.

(** C10. The handler is total: on every dict payload it returns, raising
    nothing, and the dict it returns has exactly the three keys
    displacement, estimatedGM and estimatedTrim. *)
Theorem calculate_stability_total {World : Type} (data : dict) (w : World) :
  exists result : dict,
    calculate_stability data w = (w, Returned result) /\
    dom result = ({[ "displacement"; "estimatedGM"; "estimatedTrim" ]} : gset string).
Proof. exists constants. split; [ apply handler_run | apply constants_dom ]. Qed.

(** C6. The computation is a pure, deterministic function of its input: a
    call leaves the world unchanged, its outcome is the same in every
    world, and a second call with the same input, made after the first,
    ends as the first did.  The same holds of a whole request. *)
Theorem calculate_stability_pure {World : Type}
    (data : dict) (body : option json) (w w' : World) :
  ((calculate_stability data w).1 = w /\
   (calculate_stability data w').2 = (calculate_stability data w).2 /\
   (calculate_stability data (calculate_stability data w).1).2 =
     (calculate_stability data w).2) /\
  ((post_calculate_stability body w).1 = w /\
   (post_calculate_stability body w').2 = (post_calculate_stability body w).2 /\
   (post_calculate_stability body (post_calculate_stability body w).1).2 =
     (post_calculate_stability body w).2).
Proof.
  split.
  - rewrite !handler_run. auto.
  - destruct (is_object body) eqn:Hobj.
    + destruct body as [[]|]; try discriminate Hobj.
      rewrite !route_on_object. auto.
    + rewrite !(route_on_other body) by assumption. auto.
Qed.

(** ** No validation of the payload's fields *)

(** C2, refuted as stated.  The empty payload has no [displacement_tonnes],
    nor anything it could be derived from; the request is answered with
    status 200 and a result whose displacement is 8000. *)
Lemma missing_displacement_accepted :
  (∅ : dict) !! "displacement_tonnes" = None /\
  exists result : dict,
    post_calculate_stability (Some (JDict ∅)) tt = (tt, Success result) /\
    status_code (Success result) = 200 /\
    result !! "displacement" = Some (JInt 8000).
Proof.
  split; [ apply lookup_empty | ].
  exists constants. rewrite route_on_object.
  split; [ reflexivity | ].
  split; [ reflexivity | apply constants_displacement ].
Qed.

(** C2, as the code has it.  For every payload in which
    [displacement_tonnes] is absent the request succeeds: the response has
    status 200 and carries the fixed result, whose displacement is the
    constant 8000. *)
Theorem missing_displacement_gets_constant {World : Type} (data : dict) (w : World) :
  data !! "displacement_tonnes" = None ->
  exists result : dict,
    post_calculate_stability (Some (JDict data)) w = (w, Success result) /\
    status_code (Success result) = 200 /\
    result !! "displacement" = Some (JInt 8000).
Proof.
  intros _. exists constants. rewrite route_on_object.
  split; [ reflexivity | ].
  split; [ reflexivity | apply constants_displacement ].
Qed.

Lemma missing_displacement_gets_constant_witness :
  ({[ "beam" := JInt 20 ]} : dict) !! "displacement_tonnes" = None /\
  exists result : dict,
    post_calculate_stability (Some (JDict {[ "beam" := JInt 20 ]})) tt =
      (tt, Success result) /\
    status_code (Success result) = 200 /\
    result !! "displacement" = Some (JInt 8000).
Proof.
  split; [ reflexivity | ].
  apply (missing_displacement_gets_constant (World := unit)).
  reflexivity.
Defined.



(** ** The three fields of the result *)

(** C7, refuted as stated.  [negative_displacement] supplies -5 tonnes.  It
    is not rejected at validation: the handler is called and returns, and
    the request is answered with status 200. *)
Lemma negative_displacement_not_rejected :
  exists (supplied : json) (result : dict),
    Samples.negative_displacement !! "displacement_tonnes" = Some supplied /\
    num_leb supplied (JInt 0) = true /\
    num_leb (JInt 0) supplied = false /\
    calculate_stability Samples.negative_displacement tt = (tt, Returned result) /\
    status_code
      (post_calculate_stability (Some (JDict Samples.negative_displacement)) tt).2 = 200.
Proof.
  exists (JInt (-5)), constants.
  split; [ reflexivity | ].
  split; [ reflexivity | ].
  split; [ reflexivity | ].
  split; [ apply handler_run | ].
  rewrite route_on_object. reflexivity.
Qed.

(** C7, as the code has it.  However a call of the operation ends, it ends
    in a success whose displacement is a non-negative number, the constant
    8000: no result carries a displacement below 0.  No input is rejected
    for that, an input with a negative displacement no more than another:
    it gets the same 8000. *)
Theorem displacement_nonnegative_unvalidated {World : Type}
    (data : dict) (w w' : World) (o : outcome dict) :
  calculate_stability data w = (w', o) ->
  exists (result : dict) (d : json),
    o = Returned result /\
    result !! "displacement" = Some d /\
    d = JInt 8000 /\
    num_leb (JInt 0) d = true.
Proof.
  rewrite handler_run. intros Hrun.
  injection Hrun as _ <-.
  exists constants, (JInt 8000).
  split; [ reflexivity | ].
  split; [ apply constants_displacement | ].
  split; reflexivity.
Qed.

Lemma displacement_nonnegative_unvalidated_witness :
  calculate_stability Samples.negative_displacement tt =
    (tt, Returned {[ "displacement" := JInt 8000;
                     "estimatedGM" := JFloat (Float64.literal 15 1);
                     "estimatedTrim" := JFloat (Float64.literal 2 1) ]}) /\
  exists (result : dict) (d : json),
    Returned {[ "displacement" := JInt 8000;
                "estimatedGM" := JFloat (Float64.literal 15 1);
                "estimatedTrim" := JFloat (Float64.literal 2 1) ]} = Returned result /\
    result !! "displacement" = Some d /\
    d = JInt 8000 /\
    num_leb (JInt 0) d = true.
Proof.
  split; [ reflexivity | ].
  apply (displacement_nonnegative_unvalidated (World := unit)
           Samples.negative_displacement tt tt).
  reflexivity.
Defined.

(** C3, refuted as stated.  The example scenario omits
    [cargo_distribution]; the call succeeds and its estimatedTrim is not
    equal to 0.0. *)
Lemma trim_without_cargo_not_zero :
  Samples.example_scenario !! "cargo_distribution" = None /\
  exists (result : dict) (trim : json),
    calculate_stability Samples.example_scenario tt = (tt, Returned result) /\
    result !! "estimatedTrim" = Some trim /\
    num_eqb trim (JFloat (Float64.literal 0 1)) = false.
Proof.
  split; [ reflexivity | ].
  exists constants, (JFloat (Float64.literal 2 1)).
  split; [ apply handler_run | ].
  split; [ apply constants_estimatedTrim | ].
  rewrite literal_0_2, literal_0_0. reflexivity.
Qed.

(** C3, as the code has it.  For every input that omits
    [cargo_distribution] the call succeeds and the returned estimatedTrim
    is the fixed constant 0.2. *)
Theorem trim_without_cargo_constant {World : Type} (data : dict) (w : World) :
  data !! "cargo_distribution" = None ->
  exists result : dict,
    calculate_stability data w = (w, Returned result) /\
    result !! "estimatedTrim" = Some (JFloat (Float64.literal 2 1)).
Proof.
  intros _. exists constants.
  split; [ apply handler_run | apply constants_estimatedTrim ].
Qed.

Lemma trim_without_cargo_constant_witness :
  Samples.level_centres !! "cargo_distribution" = None /\
  exists result : dict,
    calculate_stability Samples.level_centres tt = (tt, Returned result) /\
    result !! "estimatedTrim" = Some (JFloat (Float64.literal 2 1)).
Proof.
  split; [ reflexivity | ].
  apply (trim_without_cargo_constant (World := unit)).
  reflexivity.
Defined.

(** C4, refuted as stated.  In [level_centres] the two centres are at the
    same height and there is no beam, hence no metacentric radius; the
    returned estimatedGM is not equal to 0. *)
Lemma level_centres_gm_not_zero :
  exists (cob cog : json) (result : dict) (gm : json),
    Samples.level_centres !! "center_of_buoyancy_height" = Some cob /\
    Samples.level_centres !! "center_of_gravity_height" = Some cog /\
    num_eqb cob cog = true /\
    Samples.level_centres !! "beam" = None /\
    calculate_stability Samples.level_centres tt = (tt, Returned result) /\
    result !! "estimatedGM" = Some gm /\
    num_eqb gm (JInt 0) = false.
Proof.
  exists (JFloat (Float64.literal 60 1)), (JFloat (Float64.literal 60 1)).
  exists constants, (JFloat (Float64.literal 15 1)).
  split; [ reflexivity | ].
  split; [ reflexivity | ].
  split; [ vm_compute; reflexivity | ].
  split; [ reflexivity | ].
  split; [ apply handler_run | ].
  split; [ apply constants_estimatedGM | ].
  rewrite literal_1_5. reflexivity.
Qed.

(** C4, as the code has it.  For every input in which
    [center_of_buoyancy_height] equals [center_of_gravity_height], whatever
    its beam, the returned estimatedGM is the fixed constant 1.5. *)
Theorem level_centres_gm_constant {World : Type}
    (data : dict) (w : World) (cob cog : json) :
  data !! "center_of_buoyancy_height" = Some cob ->
  data !! "center_of_gravity_height" = Some cog ->
  num_eqb cob cog = true ->
  exists result : dict,
    calculate_stability data w = (w, Returned result) /\
    result !! "estimatedGM" = Some (JFloat (Float64.literal 15 1)).
Proof.
  intros _ _ _. exists constants.
  split; [ apply handler_run | apply constants_estimatedGM ].
Qed.

Lemma level_centres_gm_constant_witness :
  (Samples.level_centres !! "center_of_buoyancy_height" =
     Some (JFloat (Float64.literal 60 1)) /\
   Samples.level_centres !! "center_of_gravity_height" =
     Some (JFloat (Float64.literal 60 1)) /\
   num_eqb (JFloat (Float64.literal 60 1)) (JFloat (Float64.literal 60 1)) = true) /\
  exists result : dict,
    calculate_stability Samples.level_centres tt = (tt, Returned result) /\
    result !! "estimatedGM" = Some (JFloat (Float64.literal 15 1)).
Proof.
  split.
  - split; [ reflexivity | split; [ reflexivity | vm_compute; reflexivity ] ].
  - apply (level_centres_gm_constant (World := unit) Samples.level_centres tt
             (JFloat (Float64.literal 60 1)) (JFloat (Float64.literal 60 1)));
      [ reflexivity | reflexivity | vm_compute; reflexivity ].
Defined.

(** C5, refuted as stated.  [loaded_vessel] supplies 9000 tonnes, and cargo
    weights that sum to 9000; the returned displacement equals neither. *)
Lemma displacement_not_from_input :
  exists (result : dict) (d supplied : json),
    calculate_stability Samples.loaded_vessel tt = (tt, Returned result) /\
    result !! "displacement" = Some d /\
    Samples.loaded_vessel !! "displacement_tonnes" = Some supplied /\
    num_eqb d supplied = false /\
    Qeq_bool (supplied_weights_sum Samples.loaded_vessel) 9000 = true /\
    option_map (Qeq_bool (supplied_weights_sum Samples.loaded_vessel)) (number d) =
      Some false.
Proof.
  exists constants, (JInt 8000), (JInt 9000).
  split; [ apply handler_run | ].
  split; [ apply constants_displacement | ].
  split; [ reflexivity | ].
  split; [ reflexivity | ].
  split; vm_compute; reflexivity.
Qed.

(** C5, as the code has it.  For every input the displacement of the result
    is the fixed constant 8000, whatever [displacement_tonnes] and cargo
    weights the input supplies. *)
Theorem displacement_constant {World : Type} (data : dict) (w : World) :
  exists result : dict,
    calculate_stability data w = (w, Returned result) /\
    result !! "displacement" = Some (JInt 8000).
Proof.
  exists constants.
  split; [ apply handler_run | apply constants_displacement ].
Qed.

(** ** Beyond the claims *)

(** X2. Every field of every result is a finite number above zero: whatever
    the payload and whichever key of the returned dict is read, the value
    there is a number (no NaN, no infinity, no other JSON value) and it is
    greater than 0.  In particular the estimatedGM reported is never zero or
    negative. *)
Theorem result_fields_positive_numbers {World : Type}
    (data : dict) (w w' : World) (result : dict) (key : string) (v : json) :
  calculate_stability data w = (w', Returned result) ->
  result !! key = Some v ->
  exists q : Q, number v = Some q /\ Qle_bool q 0 = false.
Proof.
  rewrite handler_run. intros Hrun Hkey.
  injection Hrun as _ <-.
  unfold dict_display in Hkey; simpl in Hkey.
  destruct (decide (key = "estimatedTrim")) as [->|Htrim].
  { rewrite lookup_insert_eq, literal_0_2 in Hkey.
    injection Hkey as <-. eexists; split; reflexivity. }
  rewrite lookup_insert_ne in Hkey by congruence.
  destruct (decide (key = "estimatedGM")) as [->|Hgm].
  { rewrite lookup_insert_eq, literal_1_5 in Hkey.
    injection Hkey as <-. eexists; split; reflexivity. }
  rewrite lookup_insert_ne in Hkey by congruence.
  destruct (decide (key = "displacement")) as [->|Hdisp].
  { rewrite lookup_insert_eq in Hkey.
    injection Hkey as <-. eexists; split; reflexivity. }
  rewrite lookup_insert_ne, lookup_empty in Hkey by congruence.
  discriminate Hkey.
Qed.

Lemma result_fields_positive_numbers_witness :
  (calculate_stability Samples.negative_displacement tt =
     (tt, Returned {[ "displacement" := JInt 8000;
                      "estimatedGM" := JFloat (Float64.literal 15 1);
                      "estimatedTrim" := JFloat (Float64.literal 2 1) ]}) /\
   ({[ "displacement" := JInt 8000;
       "estimatedGM" := JFloat (Float64.literal 15 1);
       "estimatedTrim" := JFloat (Float64.literal 2 1) ]} : dict) !! "estimatedGM" =
     Some (JFloat (Float64.literal 15 1))) /\
  exists q : Q,
    number (JFloat (Float64.literal 15 1)) = Some q /\ Qle_bool q 0 = false.
Proof.
  split; [ split; reflexivity | ].
  apply (result_fields_positive_numbers (World := unit)
           Samples.negative_displacement tt tt
           {[ "displacement" := JInt 8000;
              "estimatedGM" := JFloat (Float64.literal 15 1);
              "estimatedTrim" := JFloat (Float64.literal 2 1) ]}
           "estimatedGM");
    reflexivity.
Defined.
